(** * cpm_serial_port_action_info: the serial-port status query of the WTI
    collection, embedded from
    [src/wti/remote/plugins/modules/cpm_serial_port_action_info.py].

    Conventions of the embedding.
    - A Python [str] is represented by the string of its UTF-8 bytes, so a
      Rocq [string] stands both for text and for the [bytes] it encodes to:
      [to_bytes] and [to_text] are the identity on it, and a text is empty
      exactly when its encoding is.  A text with a lone surrogate, which has
      no UTF-8 encoding and on which [to_bytes] raises, has no
      representation.
    - A Python [dict] with string keys is a [gmap string _].
    - The network is an explicit state: the list of requests issued so far,
      answered by a server given as a function of the request. *)

From Stdlib Require Import Ascii String NArith List Lia.
From stdpp Require Import base option list strings gmap.

Local Open Scope N_scope.

(** ** Text helpers *)

(** Python's [sep.join(items)]. *)
Fixpoint join (sep : string) (items : list string) : string :=
  match items with
  | [] => ""
  | [x] => x
  | x :: rest => x +:+ sep +:+ join sep rest
  end.

(** Python's [needle in hay] on strings: some suffix of [hay] starts with
    [needle]. *)
Fixpoint str_contains (needle hay : string) : bool :=
  String.prefix needle hay ||
  match hay with
  | EmptyString => false
  | String _ hay' => str_contains needle hay'
  end.

(** Python's [s.endswith(suffix)]. *)
Fixpoint endswith (s suffix : string) : bool :=
  if String.eqb s suffix then true
  else match s with
       | EmptyString => false
       | String _ s' => endswith s' suffix
       end.

(** Python's [s.split(sep)] for a one-character separator: the fields
    between the separators, of which there is always at least one. *)
Fixpoint split (sep : ascii) (s : string) : list string :=
  match s with
  | EmptyString => [EmptyString]
  | String c s' =>
      if Ascii.eqb c sep then EmptyString :: split sep s'
      else match split sep s' with
           | field :: fields => String c field :: fields
           | [] => [String c EmptyString]
           end
  end.

(** Python's [sep not in s] for a one-character separator. *)
Fixpoint lacks (sep : ascii) (s : string) : bool :=
  match s with
  | EmptyString => true
  | String c s' => negb (Ascii.eqb c sep) && lacks sep s'
  end.

(** ** ansible.module_utils._text *)

(** [to_native(obj)]: a text is returned as it is; any other object through
    its [str()] (the [nonstring='simplerepr'] default), which for [None] is
    the four characters [None]. *)
Class ToNative (A : Type) := to_native : A -> string.

#[export] Instance to_native_str : ToNative string := fun s => s.

#[export] Instance to_native_optional : ToNative (option string) := fun o =>
  match o with
  | Some s => s
  | None => "None"
  end.

(** [to_bytes(text, errors='surrogate_or_strict')] and [to_text(bytes)], on
    the UTF-8 representation. *)
Definition to_bytes (s : string) : string := s.
Definition to_text (s : string) : string := s.

(** ** base64.b64encode (RFC 4648, standard alphabet, padded) *)

Module Base64.

Definition alphabet : string :=
  "ABCDEFGHIJKLMNOPQRSTUVWXYZabcdefghijklmnopqrstuvwxyz0123456789+/".

Definition pad : ascii := "="%char.

(** The character of a 6-bit value. *)
Definition enc_char (i : N) : ascii :=
  match String.get (N.to_nat i) alphabet with
  | Some c => c
  | None => pad
  end.

(** The 24-bit group of three bytes, first byte in the high bits. *)
Definition group (a b c : ascii) : N :=
  N.lor (N.shiftl (N_of_ascii a) 16)
        (N.lor (N.shiftl (N_of_ascii b) 8) (N_of_ascii c)).

(** The [k]-th 6-bit field of a group, [k = 3] the highest. *)
Definition sextet (x : N) (k : N) : N := N.land (N.shiftr x (6 * k)) 63.

Fixpoint b64encode (s : string) : string :=
  match s with
  | EmptyString => EmptyString
  | String a EmptyString =>
      let x := group a zero zero in
      String (enc_char (sextet x 3)) (String (enc_char (sextet x 2))
        (String pad (String pad EmptyString)))
  | String a (String b EmptyString) =>
      let x := group a b zero in
      String (enc_char (sextet x 3)) (String (enc_char (sextet x 2))
        (String (enc_char (sextet x 1)) (String pad EmptyString)))
  | String a (String b (String c rest)) =>
      let x := group a b c in
      String (enc_char (sextet x 3)) (String (enc_char (sextet x 2))
        (String (enc_char (sextet x 1)) (String (enc_char (sextet x 0))
          (b64encode rest))))
  end.

(** *** The inverse direction

    It is used only to state that [b64encode] loses nothing. *)

(** The position of [c] in [s]. *)
Fixpoint index_of (c : ascii) (s : string) : option N :=
  match s with
  | EmptyString => None
  | String d s' =>
      if Ascii.eqb c d then Some 0 else N.succ <$> index_of c s'
  end.

(** The 6-bit value of a character of the alphabet. *)
Definition dec_char (c : ascii) : option N := index_of c alphabet.

(** The 24-bit group of four 6-bit values, first value in the high bits. *)
Definition regroup (s3 s2 s1 s0 : N) : N :=
  N.lor (N.shiftl s3 18) (N.lor (N.shiftl s2 12) (N.lor (N.shiftl s1 6) s0)).

(** The [k]-th byte of a group, [k = 2] the highest. *)
Definition octet (x : N) (k : N) : ascii :=
  ascii_of_N (N.land (N.shiftr x (8 * k)) 255).

(** Decoding of padded base64 text; [None] on text that is not. *)
Fixpoint b64decode (s : string) : option string :=
  match s with
  | EmptyString => Some EmptyString
  | String c3 (String c2 (String c1 (String c0 rest))) =>
      match dec_char c3, dec_char c2 with
      | Some s3, Some s2 =>
          if Ascii.eqb c0 pad then
            match rest with
            | EmptyString =>
                if Ascii.eqb c1 pad then
                  Some (String (octet (regroup s3 s2 0 0) 2) EmptyString)
                else
                  match dec_char c1 with
                  | Some s1 =>
                      let x := regroup s3 s2 s1 0 in
                      Some (String (octet x 2) (String (octet x 1) EmptyString))
                  | None => None
                  end
            | _ => None
            end
          else
            match dec_char c1, dec_char c0, b64decode rest with
            | Some s1, Some s0, Some tail =>
                let x := regroup s3 s2 s1 s0 in
                Some (String (octet x 2) (String (octet x 1)
                       (String (octet x 0) tail)))
            | _, _, _ => None
            end
      | _, _ => None
      end
  | _ => None
  end.

End Base64.

(** ** Exceptions *)

(** The exception classes the module imports; [OtherException] stands for a
    class, given by its name, that derives from none of them. *)
Inductive exc_class :=
| HTTPError
| URLError
| SSLValidationError
| ConnectionError
| OtherException (name : string).

#[export] Instance exc_class_eq_dec : EqDecision exc_class.
Proof. solve_decision. Defined.

(** An exception object: its class and its [str()]. *)
Record exception := mk_exception {
  exc_type : exc_class;
  exc_str : string
}.

#[export] Instance to_native_exception : ToNative exception := exc_str.

(** [issubclass(c, d)]: [urllib.error.HTTPError] derives from [URLError],
    and [ansible.module_utils.urls.SSLValidationError] from that module's
    [ConnectionError]. *)
Definition issubclass (c d : exc_class) : bool :=
  match c, d with
  | HTTPError, URLError => true
  | SSLValidationError, ConnectionError => true
  | _, _ => bool_decide (c = d)
  end.

(** The result of a call that may raise. *)
Inductive raises (A : Type) :=
| Return (a : A)
| Raise (e : exception).
Arguments Return {A} a.
Arguments Raise {A} e.

(** The [except] clauses of a [try], tried in order; [None] when no clause
    matches and the exception propagates. *)
Fixpoint try_except {A : Type} (clauses : list (exc_class * (exception -> A)))
    (e : exception) : option A :=
  match clauses with
  | [] => None
  | (c, handle) :: clauses' =>
      if issubclass (exc_type e) c then Some (handle e)
      else try_except clauses' e
  end.

(** ** Module parameters *)

(** [module.params['port']]: a list of strings, or any other object, given
    by its [str()]. *)
Inductive port_value :=
| PortList (items : list string)
| PortOther (repr : string).

(** The default of [port] in [module_args]. *)
Definition port_default : port_value := PortList ["*"].

(** [module.params], as [module_args] declares it: [cpm_username] is not
    required and has no default, so it may be [None]. *)
Record Params := mk_params {
  cpm_url : string;
  cpm_username : option string;
  cpm_password : string;
  port : port_value;
  use_https : bool;
  validate_certs : bool;
  use_proxy : bool
}.

(** ** The network *)

(** The arguments of one [open_url] call. *)
Record request := mk_request {
  req_url : string;
  req_data : option string;
  req_method : string;
  req_validate_certs : bool;
  req_use_proxy : bool;
  req_headers : gmap string string
}.

(** A computation that may call the network: it is given the requests issued
    so far and returns them extended. *)
Definition Net (A : Type) : Type := list request -> A * list request.

#[export] Instance net_ret : MRet Net := fun A a log => (a, log).
#[export] Instance net_bind : MBind Net := fun A B k m log =>
  let '(a, log') := m log in k a log'.

Definition run_net {A : Type} (m : Net A) : A * list request := m [].

(** ** The module *)

Section Module.

(** The decoded form of a JSON document and [json.loads], which raises on a
    body that is not JSON. *)
Context {json : Type}.
Variable json_loads : string -> raises json.

(** The appliance, as seen through [open_url]: the body of the response
    ([response.read()]) or the exception raised. *)
Variable server : request -> raises string.

(** The values the result dictionaries hold. *)
Inductive value :=
| VBool (b : bool)
| VStr (s : string)
| VJson (j : json).

(** How the module ends: [module.exit_json] or [module.fail_json], each with
    its keyword arguments, or an exception no clause caught. *)
Inductive outcome :=
| ExitJson (kwargs : gmap string value)
| FailJson (kwargs : gmap string value)
| Uncaught (e : exception).

(** [open_url(url, data=, method=, validate_certs=, use_proxy=, headers=)]:
    the request is recorded and answered by the appliance. *)
Definition open_url (url : string) (data : option string) (method : string)
    (validate : bool) (proxy : bool) (headers : gmap string string)
  : Net (raises string) := fun log =>
  let r := mk_request url data method validate proxy headers in
  (server r, log ++ [r]).

(** Lines 162-167. *)
Definition header (params : Params) : gmap string string :=
  if (0 <? N.of_nat (String.length (to_native (cpm_username params)))) then
    let auth := to_text (Base64.b64encode (to_bytes
                  (to_native (cpm_username params) +:+ ":" +:+
                   to_native (cpm_password params)))) in
    {[ "Content-Type" := "application/json";
       "Authorization" := "Basic " +:+ auth ]}
  else
    {[ "Content-Type" := "application/json";
       "X-WTI-API-KEY" := to_native (cpm_password params) ]}.

(** Lines 169-172. *)
Definition protocol (params : Params) : string :=
  if use_https params then "https://" else "http://".

(** Lines 174-176. *)
Definition ports (params : Params) : string :=
  match port params with
  | PortList items => join "," (map to_native items)
  | PortOther repr => repr
  end.

(** Lines 177-178. *)
Definition fullurl (params : Params) : string :=
  protocol params +:+ to_native (cpm_url params) +:+ "/api/v2" +:+
  (if negb (N.of_nat (String.length (to_native (cpm_username params))) =? 0)
   then "" else "/token") +:+
  "/config/serialportsaction?ports=" +:+ ports params.

(** The keyword arguments of the four [fail_json] calls (lines 185, 188, 191
    and 194): [msg] is [text] formatted with [fullurl] and [to_native(e)]. *)
Definition fail_kwargs (text : string) (params : Params) (e : exception)
  : gmap string value :=
  {[ "msg" := VStr (text +:+ fullurl params +:+ " : " +:+ to_native e);
     "changed" := VBool false ]}.

(** The [except] clauses of lines 184-195, in their order.  The text of the
    third is written in the source as two adjacent literals, which Python
    concatenates: it has no apostrophe. *)
Definition except_clauses (params : Params)
  : list (exc_class * (exception -> outcome)) :=
  [ (HTTPError, fun e =>
       FailJson (fail_kwargs "GET: Received HTTP error for " params e));
    (URLError, fun e =>
       FailJson (fail_kwargs "GET: Failed lookup url for " params e));
    (SSLValidationError, fun e =>
       FailJson (fail_kwargs
         "GET: Error validating the servers certificate for " params e));
    (ConnectionError, fun e =>
       FailJson (fail_kwargs "GET: Error connecting to " params e)) ].

(** Lines 142-199.  [fail_json] and [exit_json] end the process, so each
    branch stops at its outcome; [json.loads] is outside the [try]. *)
Definition run_module (params : Params) : Net outcome :=
  let result : gmap string value :=
    {[ "changed" := VBool false; "data" := VStr "" ]} in
  r ← open_url (fullurl params) None "GET" (validate_certs params)
        (use_proxy params) (header params);
  match r with
  | Raise e =>
      match try_except (except_clauses params) e with
      | Some failed => mret failed
      | None => mret (Uncaught e)
      end
  | Return body =>
      match json_loads body with
      | Raise e => mret (Uncaught e)
      | Return decoded => mret (ExitJson (<["data" := VJson decoded]> result))
      end
  end.

(** The request [run_module] passes to [open_url]. *)
Definition sent_request (params : Params) : request :=
  mk_request (fullurl params) None "GET" (validate_certs params)
    (use_proxy params) (header params).

(** The outcome alone, and the requests the run issued. *)
Definition run_outcome (params : Params) : outcome :=
  fst (run_net (run_module params)).
Definition run_requests (params : Params) : list request :=
  snd (run_net (run_module params)).

(** The [changed] flag an outcome reports, if it reports one. *)
Definition changed_of (o : outcome) : option value :=
  match o with
  | ExitJson kwargs | FailJson kwargs => kwargs !! "changed"
  | Uncaught _ => None
  end.

(** The [data] payload an outcome returns, if it returns one. *)
Definition data_of (o : outcome) : option value :=
  match o with
  | ExitJson kwargs | FailJson kwargs => kwargs !! "data"
  | Uncaught _ => None
  end.

End Module.

(** ** A decoder for a fragment of JSON

    [json.loads] is a parameter of the module above.  To run the module on
    concrete bodies, the decoder below covers the documents built from
    [null], [true], [false], integers, strings with the one-character
    escapes, arrays and objects; on them it returns what [json.loads]
    returns ([None], [bool], [int], [str], [list], and [dict] as its items
    in insertion order).  Fractions, exponents and [\u] escapes are outside
    the fragment. *)

Module Json.

#[warnings="-register-all"]
Inductive jvalue :=
| JNull
| JBool (b : bool)
| JInt (z : Z)
| JStr (s : string)
| JList (items : list jvalue)
| JDict (fields : list (string * jvalue)).

Definition dquote : ascii := "034"%char.
Definition backslash : ascii := "092"%char.

(** [d[k] = v] on the item list of a dict: a present key keeps its place. *)
Fixpoint dict_set (k : string) (v : jvalue) (d : list (string * jvalue))
  : list (string * jvalue) :=
  match d with
  | [] => [(k, v)]
  | (k', v') :: d' =>
      if String.eqb k k' then (k, v) :: d' else (k', v') :: dict_set k v d'
  end.

Definition is_ws (c : ascii) : bool :=
  match N_of_ascii c with
  | 32 | 9 | 10 | 13 => true
  | _ => false
  end.

Fixpoint skip_ws (s : string) : string :=
  match s with
  | String c s' => if is_ws c then skip_ws s' else s
  | EmptyString => s
  end.

Definition digit_of (c : ascii) : option Z :=
  let n := N_of_ascii c in
  if (48 <=? n) && (n <=? 57) then Some (Z.of_N (n - 48)) else None.

(** The digits at the head of [s], accumulated in [acc]; [seen] tells
    whether one was read. *)
Fixpoint digits (acc : Z) (seen : bool) (s : string) : option (Z * string) :=
  match s with
  | String c s' =>
      match digit_of c with
      | Some d => digits (10 * acc + d)%Z true s'
      | None => if seen then Some (acc, s) else None
      end
  | EmptyString => if seen then Some (acc, s) else None
  end.

(** An integer literal: no leading zero, no fraction, no exponent. *)
Definition number (s : string) : option (Z * string) :=
  let '(neg, s1) :=
    match s with
    | String "-" s' => (true, s')
    | _ => (false, s)
    end in
  match s1 with
  | String "0" (String c _) =>
      match digit_of c with
      | Some _ => None
      | None => if (Ascii.eqb c "." || Ascii.eqb c "e" || Ascii.eqb c "E")%bool
                then None else Some (0%Z, String.substring 1 (String.length s1) s1)
      end
  | _ =>
      match digits 0 false s1 with
      | Some (z, rest) =>
          match rest with
          | String c _ =>
              if (Ascii.eqb c "." || Ascii.eqb c "e" || Ascii.eqb c "E")%bool
              then None else Some (if neg then (- z)%Z else z, rest)
          | EmptyString => Some (if neg then (- z)%Z else z, rest)
          end
      | None => None
      end
  end.

Definition unescape (c : ascii) : option ascii :=
  if Ascii.eqb c dquote then Some dquote
  else if Ascii.eqb c backslash then Some backslash
  else match c with
       | "/" => Some "/"
       | "b" => Some "008"
       | "f" => Some "012"
       | "n" => Some "010"
       | "r" => Some "013"
       | "t" => Some "009"
       | _ => None
       end%char.

(** The rest of a string literal, after its opening quote. *)
Fixpoint string_body (s : string) : option (string * string) :=
  match s with
  | EmptyString => None
  | String c s' =>
      if Ascii.eqb c dquote then Some (EmptyString, s')
      else if Ascii.eqb c backslash then
        match s' with
        | String e s'' =>
            match unescape e, string_body s'' with
            | Some c', Some (body, rest) => Some (String c' body, rest)
            | _, _ => None
            end
        | EmptyString => None
        end
      else if N_of_ascii c <? 32 then None
      else match string_body s' with
           | Some (body, rest) => Some (String c body, rest)
           | None => None
           end
  end.

Definition literal (word : string) (v : jvalue) (s : string)
  : option (jvalue * string) :=
  if String.prefix word s
  then Some (v, String.substring (String.length word) (String.length s) s)
  else None.

(** One value at the head of [s], after white space, and what follows it.
    [parse_elements] reads what follows the first element of an array,
    [parse_members] the members of an object. *)
Fixpoint parse_value (fuel : nat) (s : string) {struct fuel}
  : option (jvalue * string) :=
  match fuel with
  | O => None
  | S fuel' =>
      match skip_ws s with
      | String "[" s1 =>
          match skip_ws s1 with
          | String "]" rest => Some (JList [], rest)
          | _ =>
              match parse_value fuel' s1 with
              | Some (v, s2) =>
                  match parse_elements fuel' [v] s2 with
                  | Some (items, rest) => Some (JList items, rest)
                  | None => None
                  end
              | None => None
              end
          end
      | String "{" s1 =>
          match skip_ws s1 with
          | String "}" rest => Some (JDict [], rest)
          | _ =>
              match parse_members fuel' [] (String "," s1) with
              | Some (fields, rest) => Some (JDict fields, rest)
              | None => None
              end
          end
      | String "n" _ => literal "null" JNull (skip_ws s)
      | String "t" _ => literal "true" (JBool true) (skip_ws s)
      | String "f" _ => literal "false" (JBool false) (skip_ws s)
      | String c s1 =>
          if Ascii.eqb c dquote then
            match string_body s1 with
            | Some (body, rest) => Some (JStr body, rest)
            | None => None
            end
          else
            match number (String c s1) with
            | Some (z, rest) => Some (JInt z, rest)
            | None => None
            end
      | EmptyString => None
      end
  end
with parse_elements (fuel : nat) (acc : list jvalue) (s : string) {struct fuel}
  : option (list jvalue * string) :=
  match fuel with
  | O => None
  | S fuel' =>
      match skip_ws s with
      | String "]" rest => Some (acc, rest)
      | String "," s1 =>
          match parse_value fuel' s1 with
          | Some (v, s2) => parse_elements fuel' (acc ++ [v]) s2
          | None => None
          end
      | _ => None
      end
  end
with parse_members (fuel : nat) (acc : list (string * jvalue)) (s : string)
    {struct fuel} : option (list (string * jvalue) * string) :=
  match fuel with
  | O => None
  | S fuel' =>
      match skip_ws s with
      | String "}" rest =>
          match acc with [] => None | _ => Some (acc, rest) end
      | String "," s1 =>
          match skip_ws s1 with
          | String q s2 =>
              if Ascii.eqb q dquote then
                match string_body s2 with
                | Some (key, s3) =>
                    match skip_ws s3 with
                    | String ":" s4 =>
                        match parse_value fuel' s4 with
                        | Some (v, s5) => parse_members fuel' (dict_set key v acc) s5
                        | None => None
                        end
                    | _ => None
                    end
                | None => None
                end
              else None
          | EmptyString => None
          end
      | _ => None
      end
  end.

(** The error [json.loads] raises; its text is not modelled. *)
Definition JSONDecodeError : exception :=
  mk_exception (OtherException "json.decoder.JSONDecodeError") "JSONDecodeError".

(** The whole document: one value, white space around it, nothing else. *)
Definition loads (s : string) : raises jvalue :=
  match parse_value (S (String.length s)) s with
  | Some (v, rest) =>
      match skip_ws rest with
      | EmptyString => Return v
      | _ => Raise JSONDecodeError
      end
  | None => Raise JSONDecodeError
  end.

(** [s] between double quotes. *)
Definition quoted (s : string) : string :=
  String dquote (s +:+ String dquote EmptyString).

End Json.

(** The body of the example of the specification:
    a one-element array holding the object with [port] 2 and [connstatus]
    [Free]. *)
Definition example_body : string :=
  "[{" +:+ Json.quoted "port" +:+ ":2," +:+ Json.quoted "connstatus" +:+
  ":" +:+ Json.quoted "Free" +:+ "}]".


(** ** The URL as the specification words it *)

Module Spec.

(** [https://] if [use_https], else [http://]. *)
Definition scheme (use_https : bool) : string :=
  if use_https then "https://" else "http://".

(** The path of credentialed mode when the username is present, the path of
    token mode, with its [/token] segment before [/config], when it is
    empty. *)
Definition path (username : string) : string :=
  if decide (username = "") then "/api/v2/token/config/serialportsaction"
  else "/api/v2/config/serialportsaction".

(** The port sequence joined with commas. *)
Definition joined_ports (port : list string) : string :=
  String.concat "," port.

(** [{scheme}{url}{path}?ports={joined_ports}]. *)
Definition url (scheme url path joined_ports : string) : string :=
  scheme +:+ url +:+ path +:+ "?ports=" +:+ joined_ports.

End Spec.

(** The exception classes the [except] clauses name. *)
Definition recognized : list exc_class :=
  [HTTPError; URLError; SSLValidationError; ConnectionError].

(** What that body decodes to. *)
Definition example_data : Json.jvalue :=
  Json.JList [Json.JDict [("port", Json.JInt 2);
                          ("connstatus", Json.JStr "Free")]].

(** The first play of [EXAMPLES]: port 2, as user [super], over https. *)
Definition example_params : Params :=
  mk_params "nonexist.wti.com" (Some "super") "super" (PortList ["2"])
    true false false.

(** The second play: the same with a user token. *)
Definition example_token_params : Params :=
  mk_params "nonexist.wti.com" (Some "") "randomusertokenfromthewtidevice"
    (PortList ["2"]) true false false.

(** A play that leaves [cpm_username] out. *)
Definition example_absent_params : Params :=
  mk_params "nonexist.wti.com" None "super" port_default false false false.

(** An appliance that answers every request with [example_body]. *)
Definition example_server (r : request) : raises string := Return example_body.

(** An appliance that answers with a page that is not JSON. *)
Definition html_server (r : request) : raises string :=
  Return "<html>login</html>".

(** An appliance on which every request raises [e]. *)
Definition failing_server (e : exception) (r : request) : raises string :=
  Raise e.

(** What [open_url] raises on a 500, on a refused connection and on a
    certificate it cannot validate. *)
Definition http_500 : exception :=
  mk_exception HTTPError "HTTP Error 500: Internal Server Error".
Definition refused : exception :=
  mk_exception ConnectionError "Connection refused".
Definition bad_certificate : exception :=
  mk_exception SSLValidationError "Failed to validate the SSL certificate".

(** ** Predicates used to state further properties *)

(** Python's [all(f(c) for c in s)]. *)
Fixpoint string_forall (f : ascii -> bool) (s : string) : bool :=
  match s with
  | EmptyString => true
  | String c s' => f c && string_forall f s'
  end.

(** A character of base64 text: one of the alphabet, or the padding. *)
Definition is_b64_char (c : ascii) : bool :=
  Ascii.eqb c Base64.pad ||
  match Base64.dec_char c with Some _ => true | None => false end.


(** * Properties *)

(** ** Text *)

Lemma append_cons (x : ascii) (a b : string) :
  String x a +:+ b = String x (a +:+ b).
Proof. reflexivity. Qed.

Lemma append_assoc (a b c : string) : (a +:+ b) +:+ c = a +:+ b +:+ c.
Proof.
  induction a as [|x a IH]; [reflexivity|].
  rewrite !append_cons. by rewrite IH.
Qed.

Lemma append_nil_l (a : string) : "" +:+ a = a.
Proof. reflexivity. Qed.

Lemma prefix_app (s t : string) : String.prefix s (s +:+ t) = true.
Proof.
  induction s as [|x s IH]; [by destruct t|].
  rewrite append_cons. cbn [String.prefix].
  destruct (ascii_dec x x); [exact IH | congruence].
Qed.

Lemma str_contains_here (s t : string) : str_contains s (s +:+ t) = true.
Proof.
  destruct (s +:+ t) eqn:E; cbn [str_contains];
    rewrite <- E, prefix_app; reflexivity.
Qed.

Lemma str_contains_app (a s b : string) :
  str_contains s (a +:+ s +:+ b) = true.
Proof.
  induction a as [|x a IH]; [rewrite append_nil_l; apply str_contains_here|].
  rewrite append_cons. cbn [str_contains]. rewrite IH. apply orb_true_r.
Qed.

Lemma endswith_refl (s : string) : endswith s s = true.
Proof.
  assert (E : String.eqb s s = true) by apply String.eqb_refl.
  destruct s; cbn [endswith]; by rewrite E.
Qed.

Lemma endswith_app (a b : string) : endswith (a +:+ b) b = true.
Proof.
  induction a as [|x a IH]; [rewrite append_nil_l; apply endswith_refl|].
  rewrite append_cons. cbn [endswith]. rewrite IH.
  by destruct (String.eqb _ _).
Qed.

(** ** Base64 *)

Section Base64_facts.

Import Base64.

Ltac Zify.zify_post_hook ::= Z.to_euclidean_division_equations.

Lemma lor_shiftl_add (hi lo k : N) :
  lo < 2 ^ k -> N.lor (N.shiftl hi k) lo = hi * 2 ^ k + lo.
Proof.
  intros Hlo. rewrite N.shiftl_mul_pow2.
  assert (Hland : N.land (hi * 2 ^ k) lo = 0).
  { apply N.bits_inj_0. intros n. rewrite N.land_spec.
    destruct (N.lt_ge_cases n k) as [Hn|Hn].
    - by rewrite N.mul_pow2_bits_low.
    - rewrite <- (N.mod_small lo (2 ^ k)) by exact Hlo.
      rewrite N.mod_pow2_bits_high by exact Hn. apply andb_false_r. }
  rewrite <- N.lxor_lor by exact Hland.
  symmetry. by apply N.add_nocarry_lxor.
Qed.

Lemma sextet_div_mod (x k : N) : sextet x k = (x / 2 ^ (6 * k)) mod 2 ^ 6.
Proof.
  unfold sextet. rewrite N.shiftr_div_pow2.
  change 63 with (N.ones 6). apply N.land_ones.
Qed.

Lemma sextet_bound (x k : N) : sextet x k < 64.
Proof. rewrite sextet_div_mod. by apply N.mod_lt. Qed.

Lemma group_add (a b c : ascii) :
  group a b c = N_of_ascii a * 65536 + N_of_ascii b * 256 + N_of_ascii c.
Proof.
  unfold group.
  pose proof (N_ascii_bounded a). pose proof (N_ascii_bounded b).
  pose proof (N_ascii_bounded c).
  rewrite (lor_shiftl_add (N_of_ascii b) (N_of_ascii c) 8) by (simpl; lia).
  rewrite lor_shiftl_add by (simpl; lia).
  change (2 ^ 16) with 65536. change (2 ^ 8) with 256. lia.
Qed.


Lemma regroup_add (s3 s2 s1 s0 : N) :
  s2 < 64 -> s1 < 64 -> s0 < 64 ->
  regroup s3 s2 s1 s0 = s3 * 262144 + s2 * 4096 + s1 * 64 + s0.
Proof.
  intros H2 H1 H0. unfold regroup.
  rewrite (lor_shiftl_add s1 s0 6) by (simpl; lia).
  rewrite (lor_shiftl_add s2 _ 12) by (simpl; lia).
  rewrite lor_shiftl_add by (simpl; lia).
  change (2 ^ 18) with 262144. change (2 ^ 12) with 4096.
  change (2 ^ 6) with 64. lia.
Qed.

Lemma octet_div_mod (x k : N) : 
  octet x k = ascii_of_N ((x / 2 ^ (8 * k)) mod 2 ^ 8).
Proof.
  unfold octet. rewrite N.shiftr_div_pow2.
  change 255 with (N.ones 8). by rewrite N.land_ones.
Qed.

Lemma octet_eq (x k : N) (a : ascii) :
  (x / 2 ^ (8 * k)) mod 256 = N_of_ascii a -> octet x k = a.
Proof.
  intros H. rewrite octet_div_mod. change (2 ^ 8) with 256.
  rewrite H. apply ascii_N_embedding.
Qed.

Lemma dec_enc_char (i : N) : i < 64 -> dec_char (enc_char i) = Some i.
Proof.
  intros Hi. destruct i as [|p]; [reflexivity|].
  do 6 (destruct p as [p|p|]; try reflexivity); lia.
Qed.

Lemma enc_char_not_pad (i : N) : i < 64 -> Ascii.eqb (enc_char i) pad = false.
Proof.
  intros Hi. destruct i as [|p]; [reflexivity|].
  do 6 (destruct p as [p|p|]; try reflexivity); lia.
Qed.

Ltac powers :=
  change (2 ^ (6 * 3)) with 262144; change (2 ^ (6 * 2)) with 4096;
  change (2 ^ (6 * 1)) with 64; change (2 ^ (6 * 0)) with 1;
  change (2 ^ (8 * 2)) with 65536; change (2 ^ (8 * 1)) with 256;
  change (2 ^ (8 * 0)) with 1; change (2 ^ 6) with 64.

Section Groups.

Variables a b c : ascii.

Lemma octets_of_group :
  let x := group a b c in
  octet x 2 = a /\ octet x 1 = b /\ octet x 0 = c.
Proof.
  intros x. pose proof (N_ascii_bounded a). pose proof (N_ascii_bounded b).
  pose proof (N_ascii_bounded c).
  repeat split; apply octet_eq; subst x; rewrite group_add; powers; lia.
Qed.

Lemma regroup_full :
  let x := group a b c in
  regroup (sextet x 3) (sextet x 2) (sextet x 1) (sextet x 0) = x.
Proof.
  intros x. pose proof (N_ascii_bounded a). pose proof (N_ascii_bounded b).
  pose proof (N_ascii_bounded c).
  rewrite regroup_add by apply sextet_bound.
  rewrite !sextet_div_mod. subst x. rewrite group_add. powers. lia.
Qed.

Lemma octet_padded_one :
  let x := group a zero zero in
  octet (regroup (sextet x 3) (sextet x 2) 0 0) 2 = a.
Proof.
  intros x. pose proof (N_ascii_bounded a).
  apply octet_eq. rewrite regroup_add by (apply sextet_bound || lia).
  rewrite !sextet_div_mod. subst x. rewrite group_add.
  change (N_of_ascii zero) with 0. powers. lia.
Qed.

Lemma octet_padded_two :
  let x := group a b zero in
  let y := regroup (sextet x 3) (sextet x 2) (sextet x 1) 0 in
  octet y 2 = a /\ octet y 1 = b.
Proof.
  intros x y. pose proof (N_ascii_bounded a). pose proof (N_ascii_bounded b).
  split; apply octet_eq; subst y;
    rewrite regroup_add by (apply sextet_bound || lia);
    rewrite !sextet_div_mod; subst x; rewrite group_add;
    change (N_of_ascii zero) with 0; powers; lia.
Qed.

End Groups.

Lemma b64decode_b64encode_le (n : nat) (s : string) :
  (String.length s <= n)%nat -> b64decode (b64encode s) = Some s.
Proof.
  revert s. induction n as [|n IH]; intros s Hlen.
  { destruct s; [reflexivity | cbn in Hlen; lia]. }
  destruct s as [|a [|b [|c rest]]]; [reflexivity|..].
  - cbn [b64encode b64decode].
    rewrite !dec_enc_char by apply sextet_bound.
    rewrite (Ascii.eqb_refl pad).
    by rewrite octet_padded_one.
  - cbn [b64encode b64decode].
    rewrite !dec_enc_char by apply sextet_bound.
    rewrite (Ascii.eqb_refl pad).
    rewrite enc_char_not_pad by apply sextet_bound.
    destruct (octet_padded_two a b) as [-> ->]. reflexivity.
  - cbn [b64encode b64decode].
    rewrite !dec_enc_char by apply sextet_bound.
    rewrite enc_char_not_pad by apply sextet_bound.
    rewrite IH by (cbn in Hlen; lia).
    rewrite regroup_full.
    destruct (octets_of_group a b c) as (-> & -> & ->). reflexivity.
Qed.

(** Decoding what [b64encode] produced gives the bytes back. *)
Theorem b64decode_b64encode (s : string) : b64decode (b64encode s) = Some s.
Proof. by apply (b64decode_b64encode_le (String.length s)). Qed.

End Base64_facts.

Example b64encode_foobar : Base64.b64encode "foobar" = "Zm9vYmFy".
Proof. reflexivity. Qed.

Example b64encode_fooba : Base64.b64encode "fooba" = "Zm9vYmE=".
Proof. reflexivity. Qed.

Example b64encode_foob : Base64.b64encode "foob" = "Zm9vYg==".
Proof. reflexivity. Qed.

(** ** Splitting what [join] built *)

Lemma split_field (sep : ascii) (x : string) :
  lacks sep x = true -> split sep x = [x].
Proof.
  induction x as [|c x IH]; [reflexivity|].
  cbn [lacks split]. intros [Hc Hx]%andb_true_iff.
  apply negb_true_iff in Hc. rewrite Hc, (IH Hx). reflexivity.
Qed.

Lemma split_app_sep (sep : ascii) (x rest : string) :
  lacks sep x = true ->
  split sep (x +:+ String sep rest) = x :: split sep rest.
Proof.
  induction x as [|c x IH]; intros Hx.
  - rewrite append_nil_l. cbn [split]. by rewrite Ascii.eqb_refl.
  - cbn [lacks] in Hx. apply andb_true_iff in Hx as [Hc Hx].
    apply negb_true_iff in Hc.
    rewrite append_cons. cbn [split]. rewrite Hc, (IH Hx). reflexivity.
Qed.

Lemma split_join (sep : ascii) (items : list string) :
  items <> [] ->
  forallb (lacks sep) items = true ->
  split sep (join (String sep "") items) = items.
Proof.
  induction items as [|x [|y rest] IH]; intros Hne Hall.
  - congruence.
  - cbn [forallb] in Hall. apply andb_true_iff in Hall as [Hx _].
    cbn [join]. by apply split_field.
  - cbn [forallb] in Hall. apply andb_true_iff in Hall as [Hx Hrest].
    change (join (String sep "") (x :: y :: rest))
      with (x +:+ String sep "" +:+ join (String sep "") (y :: rest)).
    rewrite append_cons, append_nil_l, split_app_sep by exact Hx.
    f_equal. apply IH; [congruence | exact Hrest].
Qed.

(** ** The request *)

Section Run.

Context {json : Type}.
Variable json_loads : string -> raises json.
Variable server : request -> raises string.

(** Every run issues exactly one request, [sent_request]. *)
Lemma run_requests_eq (params : Params) :
  run_requests json_loads server params = [sent_request params].
Proof.
  unfold run_requests, run_net, run_module, open_url, mbind, net_bind.
  fold (sent_request params). cbn [app].
  destruct (server (sent_request params)) as [body|e].
  - by destruct (json_loads body).
  - by destruct (try_except _ e).
Qed.

Lemma run_outcome_return (params : Params) (body : string) :
  server (sent_request params) = Return body ->
  run_outcome json_loads server params =
  match json_loads body with
  | Return decoded =>
      ExitJson (<["data" := VJson decoded]>
                  {[ "changed" := VBool false; "data" := VStr "" ]})
  | Raise e => Uncaught e
  end.
Proof.
  intros Hs.
  unfold run_outcome, run_net, run_module, open_url, mbind, net_bind.
  fold (sent_request params). rewrite Hs.
  by destruct (json_loads body).
Qed.

Lemma run_outcome_raise (params : Params) (e : exception) :
  server (sent_request params) = Raise e ->
  run_outcome json_loads server params =
  match try_except (except_clauses params) e with
  | Some failed => failed
  | None => Uncaught e
  end.
Proof.
  intros Hs.
  unfold run_outcome, run_net, run_module, open_url, mbind, net_bind.
  fold (sent_request params). rewrite Hs.
  by destruct (try_except _ e).
Qed.

Lemma len_positive (s : string) :
  (0 <? N.of_nat (String.length s)) = negb (String.eqb s "").
Proof. by destruct s. Qed.

Lemma len_truthy (s : string) :
  negb (N.of_nat (String.length s) =? 0) = negb (String.eqb s "").
Proof. by destruct s. Qed.

Lemma header_basic (params : Params) :
  to_native (cpm_username params) <> "" ->
  header params =
  {[ "Content-Type" := "application/json";
     "Authorization" :=
       "Basic " +:+ Base64.b64encode (to_native (cpm_username params) +:+
                                      ":" +:+ cpm_password params) ]}.
Proof.
  intros Hne. unfold header. rewrite len_positive.
  apply String.eqb_neq in Hne. by rewrite Hne.
Qed.

Lemma header_token (params : Params) :
  to_native (cpm_username params) = "" ->
  header params =
  {[ "Content-Type" := "application/json";
     "X-WTI-API-KEY" := cpm_password params ]}.
Proof.
  intros He. unfold header. rewrite len_positive, He. reflexivity.
Qed.

Lemma fullurl_credentialed (params : Params) :
  to_native (cpm_username params) <> "" ->
  fullurl params =
  protocol params +:+ cpm_url params +:+
  "/api/v2/config/serialportsaction" +:+ "?ports=" +:+ ports params.
Proof.
  intros Hne. unfold fullurl. rewrite len_truthy.
  apply String.eqb_neq in Hne. rewrite Hne. cbn [negb].
  unfold to_native at 1, to_native_str. reflexivity.
Qed.

Lemma fullurl_token (params : Params) :
  to_native (cpm_username params) = "" ->
  fullurl params =
  protocol params +:+ cpm_url params +:+
  "/api/v2/token/config/serialportsaction" +:+ "?ports=" +:+ ports params.
Proof.
  intros He. unfold fullurl. rewrite len_truthy, He.
  unfold to_native at 1, to_native_str. reflexivity.
Qed.

(** C1. When [cpm_username] is a non-empty string, the headers of the request
    hold [Content-Type: application/json] and [Authorization: Basic]
    followed by the base64 of [cpm_username:cpm_password], and no
    [X-WTI-API-KEY]; when it is the empty string, they hold the same
    [Content-Type] and [X-WTI-API-KEY] set to [cpm_password], and no
    [Authorization]. *)
Theorem header_auth_mode (params : Params) (u : string) :
  cpm_username params = Some u ->
  run_requests json_loads server params = [sent_request params] /\
  req_headers (sent_request params) !! "Content-Type"
    = Some "application/json" /\
  (u <> "" ->
     req_headers (sent_request params) !! "Authorization"
       = Some ("Basic " +:+
               Base64.b64encode (u +:+ ":" +:+ cpm_password params)) /\
     req_headers (sent_request params) !! "X-WTI-API-KEY" = None) /\
  (u = "" ->
     req_headers (sent_request params) !! "X-WTI-API-KEY"
       = Some (cpm_password params) /\
     req_headers (sent_request params) !! "Authorization" = None).
Proof.
  intros Hu. split; [apply run_requests_eq|].
  cbn [sent_request req_headers].
  assert (Hn : to_native (cpm_username params) = u) by (by rewrite Hu).
  destruct (decide (u = "")) as [He|Hne].
  - rewrite header_token by congruence.
    split; [done|]. split; [done|]. intros _. done.
  - rewrite header_basic, Hn by congruence.
    split; [done|]. split; [|done]. intros _. done.
Qed.

(** C2. The request goes to [/api/v2/config/serialportsaction] when
    [cpm_username] is non-empty and to
    [/api/v2/token/config/serialportsaction] when it is empty: the [/token]
    segment stands between [/api/v2] and [/config] exactly in the second
    case. *)
Theorem fullurl_path_mode (params : Params) (u : string) :
  cpm_username params = Some u ->
  (u <> "" ->
     req_url (sent_request params) =
     protocol params +:+ cpm_url params +:+
     "/api/v2/config/serialportsaction" +:+
     "?ports=" +:+ ports params) /\
  (u = "" ->
     req_url (sent_request params) =
     protocol params +:+ cpm_url params +:+
     "/api/v2/token/config/serialportsaction" +:+
     "?ports=" +:+ ports params) /\
  (req_url (sent_request params) =
     protocol params +:+ cpm_url params +:+
     "/api/v2/token/config/serialportsaction" +:+
     "?ports=" +:+ ports params <-> u = "").
Proof.
  intros Hu. cbn [sent_request req_url].
  assert (Hn : to_native (cpm_username params) = u) by (by rewrite Hu).
  split; [|split].
  - intros Hne. rewrite fullurl_credentialed by congruence. reflexivity.
  - intros He. rewrite fullurl_token by congruence. reflexivity.
  - split; [|intros He; apply fullurl_token; congruence].
    intros Hurl. destruct (decide (u = "")) as [|Hne]; [done|].
    rewrite fullurl_credentialed in Hurl by congruence.
    do 2 apply (inj (String.app _)) in Hurl. discriminate Hurl.
Qed.

(** C3. The [ports] query value of a list of port strings is its elements
    joined with commas, in the given order, each element as it is, with no
    element dropped and none checked to be a number: the URL ends with
    [?ports=] and the joined value, and splitting the value at its commas
    gives the list back whenever no element holds a comma itself.  A port
    list of [2] gives [?ports=2], of [2] and [4] gives [?ports=2,4], and the
    default gives [?ports=*]. *)
Theorem ports_joined (url : string) (user : option string) (pw : string)
    (https validate proxy : bool) :
  let params port := mk_params url user pw port https validate proxy in
  (forall items : list string,
     ports (params (PortList items)) = join "," items /\
     endswith (req_url (sent_request (params (PortList items))))
       ("?ports=" +:+ join "," items) = true /\
     (items <> [] -> forallb (lacks ",") items = true ->
      split "," (ports (params (PortList items))) = items)) /\
  endswith (req_url (sent_request (params (PortList ["2"])))) "?ports=2"
    = true /\
  endswith (req_url (sent_request (params (PortList ["2"; "4"]))))
    "?ports=2,4" = true /\
  endswith (req_url (sent_request (params port_default))) "?ports=*" = true.
Proof.
  intros params.
  assert (Hports : forall items,
            ports (params (PortList items)) = join "," items).
  { intros items. unfold ports. cbn [params port].
    f_equal. induction items as [|x items IH]; [reflexivity|].
    cbn [map]. by rewrite IH. }
  assert (Hend : forall port,
            endswith (req_url (sent_request (params port)))
              ("?ports=" +:+ ports (params port)) = true).
  { intros port. cbn [sent_request req_url]. unfold fullurl.
    rewrite <- !append_assoc.
    change ("/config/serialportsaction?ports=")
      with ("/config/serialportsaction" +:+ "?ports=").
    rewrite <- !append_assoc. rewrite append_assoc. apply endswith_app. }
  split; [|split; [|split]].
  - intros items. split; [apply Hports|]. split.
    + rewrite <- Hports. apply Hend.
    + intros Hne Hall. rewrite Hports. by apply split_join.
  - apply (Hend (PortList ["2"])).
  - apply (Hend (PortList ["2"; "4"])).
  - apply (Hend port_default).
Qed.

(** C4. The URL of the request is the scheme, [cpm_url], the path and
    [?ports=] with the joined ports, in this order; the scheme is [https://]
    exactly when [use_https] is true and [http://] otherwise, the path is
    the one the username selects, and the joined ports of a port list are
    its elements joined with commas. *)
Theorem fullurl_composition (params : Params) :
  req_url (sent_request params) =
    Spec.url (Spec.scheme (use_https params)) (cpm_url params)
      (Spec.path (to_native (cpm_username params))) (ports params) /\
  (Spec.scheme (use_https params) = "https://" <-> use_https params = true) /\
  (Spec.scheme (use_https params) = "http://" <-> use_https params <> true) /\
  (forall items : list string,
     port params = PortList items -> ports params = Spec.joined_ports items).
Proof.
  split; [|split; [|split]].
  - cbn [sent_request req_url]. unfold Spec.url, Spec.path.
    destruct (decide (to_native (cpm_username params) = "")) as [He|Hne].
    + by rewrite fullurl_token.
    + by rewrite fullurl_credentialed.
  - by destruct (use_https params).
  - destruct (use_https params); split; try done.
  - intros items Hitems. unfold ports, Spec.joined_ports. rewrite Hitems.
    clear Hitems. induction items as [|x [|y rest] IH]; try reflexivity.
    cbn [map join String.concat] in *. by rewrite <- IH.
Qed.

Lemma result_with_data (decoded : json) :
  <["data" := VJson decoded]>
    ({[ "changed" := VBool false; "data" := VStr "" ]} : gmap string value)
  = {[ "changed" := VBool false; "data" := VJson decoded ]}.
Proof.
  rewrite insert_insert_ne by done. by rewrite insert_singleton_eq.
Qed.

(** What the clause that catches [e] does, for each recognized class. *)
Lemma try_except_recognized (params : Params) (e : exception) :
  exc_type e ∈ recognized ->
  exists text : string,
    try_except (except_clauses params) e
      = Some (FailJson (json := json) (fail_kwargs text params e)) /\
    text ∈ [ "GET: Received HTTP error for ";
             "GET: Failed lookup url for ";
             "GET: Error validating the servers certificate for ";
             "GET: Error connecting to " ].
Proof.
  unfold recognized. rewrite !elem_of_cons, elem_of_nil.
  intros [H|[H|[H|[H|[]]]]]; cbn [try_except except_clauses]; rewrite H;
    cbn; eexists; (split; [reflexivity|]); set_solver.
Qed.

Lemma run_outcome_decoded (params : Params) (body : string) (decoded : json) :
  server (sent_request params) = Return body ->
  json_loads body = Return decoded ->
  run_outcome json_loads server params
    = ExitJson {[ "changed" := VBool false; "data" := VJson decoded ]}.
Proof.
  intros Hs Hj. rewrite (run_outcome_return params body Hs), Hj.
  by rewrite result_with_data.
Qed.

Lemma run_outcome_recognized (params : Params) (e : exception) :
  server (sent_request params) = Raise e ->
  exc_type e ∈ recognized ->
  exists text : string,
    run_outcome json_loads server params
      = FailJson (fail_kwargs text params e).
Proof.
  intros Hs Hrec.
  destruct (try_except_recognized params e Hrec) as (text & Htry & _).
  exists text. by rewrite (run_outcome_raise params e Hs), Htry.
Qed.

Lemma append_nil_r (a : string) : a +:+ "" = a.
Proof.
  induction a as [|c t IH]; [done|]. rewrite append_cons. by rewrite IH.
Qed.

(** C5. When the call succeeds and the body decodes, the module exits with a
    result whose [data] is the decoded body and whose [changed] is false. *)
Theorem success_returns_decoded (params : Params) (body : string)
    (decoded : json) :
  server (sent_request params) = Return body ->
  json_loads body = Return decoded ->
  run_outcome json_loads server params
    = ExitJson {[ "changed" := VBool false; "data" := VJson decoded ]}.
Proof.
  apply run_outcome_decoded.
Qed.

(** C6. When the call raises an exception of one of the four classes the
    module names, the module fails with a message that holds the URL of the
    request and the text of the exception, with [changed] false and no
    [data]; the request was issued once, and no second one follows. *)
Theorem recognized_failure_fails (params : Params) (e : exception) :
  server (sent_request params) = Raise e ->
  exc_type e ∈ recognized ->
  exists msg : string,
    run_outcome json_loads server params
      = FailJson {[ "msg" := VStr msg; "changed" := VBool false ]} /\
    str_contains (req_url (sent_request params)) msg = true /\
    str_contains (exc_str e) msg = true /\
    changed_of (run_outcome json_loads server params) = Some (VBool false) /\
    data_of (run_outcome json_loads server params) = None /\
    run_requests json_loads server params = [sent_request params].
Proof.
  intros Hs Hrec.
  destruct (run_outcome_recognized params e Hs Hrec) as (text & ->).
  exists (text +:+ fullurl params +:+ " : " +:+ to_native e).
  split; [reflexivity|]. split; [apply str_contains_app|]. split.
  { rewrite <- (append_assoc (fullurl params)), <- append_assoc.
    rewrite <- (append_nil_r (to_native e)). apply str_contains_app. }
  split; [done|]. split; [done|]. apply run_requests_eq.
Qed.

(** C8. Whatever the input and whatever the appliance does, no outcome
    reports a change: an exit and a failure both carry [changed] false, as
    every decoded success and every recognized failure does. *)
Theorem changed_always_false (params : Params) :
  (forall kwargs : gmap string value,
     run_outcome json_loads server params = ExitJson kwargs \/
     run_outcome json_loads server params = FailJson kwargs ->
     kwargs !! "changed" = Some (VBool false)) /\
  (forall (body : string) (decoded : json),
     server (sent_request params) = Return body ->
     json_loads body = Return decoded ->
     changed_of (run_outcome json_loads server params) = Some (VBool false)) /\
  (forall e : exception,
     server (sent_request params) = Raise e ->
     exc_type e ∈ recognized ->
     changed_of (run_outcome json_loads server params) = Some (VBool false)) /\
  changed_of (run_outcome json_loads server params) <> Some (VBool true).
Proof.
  assert (Hall : forall kwargs : gmap string value,
            run_outcome json_loads server params = ExitJson kwargs \/
            run_outcome json_loads server params = FailJson kwargs ->
            kwargs !! "changed" = Some (VBool false)).
  { intros kwargs.
    destruct (server (sent_request params)) as [body|e] eqn:Hs.
    - rewrite (run_outcome_return params body Hs).
      destruct (json_loads body) as [decoded|e].
      + rewrite result_with_data. by intros [[= <-]|[=]].
      + by intros [[=]|[=]].
    - rewrite (run_outcome_raise params e Hs).
      cbn [try_except except_clauses].
      repeat (destruct (issubclass (exc_type e) _);
              [by intros [[=]|[= <-]]|]).
      by intros [[=]|[=]]. }
  split; [exact Hall|]. split; [|split].
  - intros body decoded Hs Hj.
    by rewrite (run_outcome_decoded params body decoded Hs Hj).
  - intros e Hs Hrec.
    by destruct (run_outcome_recognized params e Hs Hrec) as (text & ->).
  - destruct (run_outcome json_loads server params) as [k|k|e] eqn:Ho;
      cbn [changed_of]; [| |done].
    + rewrite (Hall k) by (by left). done.
    + rewrite (Hall k) by (by right). done.
Qed.

(** C9. When the call succeeds and the body does not decode, the error of
    the decoder leaves the module uncaught: the module does not exit with a
    result, and no [data] is returned. *)
Theorem undecodable_body_raises (params : Params) (body : string)
    (e : exception) :
  server (sent_request params) = Return body ->
  json_loads body = Raise e ->
  run_outcome json_loads server params = Uncaught e /\
  (forall kwargs : gmap string value,
     run_outcome json_loads server params <> ExitJson kwargs) /\
  data_of (run_outcome json_loads server params) = None.
Proof.
  intros Hs Hj. rewrite (run_outcome_return params body Hs), Hj. done.
Qed.

(** C10. Token mode is selected only when [cpm_username] is the empty
    string.  When [cpm_username] is absent, its conversion to text is the
    four characters [None]: the headers hold a Basic authorization for the
    user [None] with [cpm_password], and the URL has the credentialed path,
    without [/token]. *)
Theorem absent_username_is_credentialed (params : Params) :
  (is_Some (req_headers (sent_request params) !! "X-WTI-API-KEY") <->
   cpm_username params = Some "") /\
  (cpm_username params = None ->
   to_native (cpm_username params) = "None" /\
   String.length (to_native (cpm_username params)) = 4%nat /\
   req_headers (sent_request params) =
     {[ "Content-Type" := "application/json";
        "Authorization" :=
          "Basic " +:+
          Base64.b64encode ("None" +:+ ":" +:+ cpm_password params) ]} /\
   req_url (sent_request params) =
     protocol params +:+ cpm_url params +:+
     "/api/v2/config/serialportsaction" +:+ "?ports=" +:+ ports params).
Proof.
  cbn [sent_request req_headers req_url]. split.
  - destruct (decide (to_native (cpm_username params) = "")) as [He|Hne].
    + rewrite header_token by done. split; [intros _|by eexists].
      destruct (cpm_username params) as [u|]; [by rewrite <- He|done].
    + rewrite header_basic by done. split; [by intros [? [=]]|].
      intros Hu. by rewrite Hu in Hne.
  - intros Hn.
    assert (H : to_native (cpm_username params) = "None") by (by rewrite Hn).
    split; [exact H|]. split; [by rewrite H|]. split.
    + rewrite header_basic, H; [reflexivity|by rewrite H].
    + rewrite fullurl_credentialed; [reflexivity|by rewrite H].
Qed.

End Run.

(** ** Two failures of one request *)

Section Classification.

Context {json : Type}.
Variable json_loads : string -> raises json.

(** Two appliances: on the first the certificate does not validate, on the
    second the connection fails. *)
Variables tls_server conn_server : request -> raises string.

(** C7. On the same input, a run that fails with a certificate-validation
    error and a run that fails with a plain connection error end with
    different messages, each caught by its own clause, and both with
    [changed] false. *)
Theorem tls_and_connection_messages_differ (params : Params)
    (e_tls e_conn : exception) :
  tls_server (sent_request params) = Raise e_tls ->
  exc_type e_tls = SSLValidationError ->
  conn_server (sent_request params) = Raise e_conn ->
  exc_type e_conn = ConnectionError ->
  exists m_tls m_conn : string,
    run_outcome json_loads tls_server params
      = FailJson {[ "msg" := VStr m_tls; "changed" := VBool false ]} /\
    run_outcome json_loads conn_server params
      = FailJson {[ "msg" := VStr m_conn; "changed" := VBool false ]} /\
    m_tls = "GET: Error validating the servers certificate for " +:+
            req_url (sent_request params) +:+ " : " +:+ exc_str e_tls /\
    m_conn = "GET: Error connecting to " +:+
             req_url (sent_request params) +:+ " : " +:+ exc_str e_conn /\
    m_tls <> m_conn /\
    changed_of (run_outcome json_loads tls_server params)
      = Some (VBool false) /\
    changed_of (run_outcome json_loads conn_server params)
      = Some (VBool false).
Proof.
  intros Hs1 Ht1 Hs2 Ht2.
  rewrite (run_outcome_raise json_loads tls_server params e_tls Hs1).
  rewrite (run_outcome_raise json_loads conn_server params e_conn Hs2).
  cbn [try_except except_clauses]. rewrite Ht1, Ht2. cbn.
  do 2 eexists. do 4 (split; [reflexivity|]).
  split; [|done]. rewrite !append_cons. discriminate.
Qed.

End Classification.

(** ** The plays of [EXAMPLES], run *)

Lemma header_auth_mode_witness :
  (req_headers (sent_request example_params) !! "Authorization"
     = Some "Basic c3VwZXI6c3VwZXI=" /\
   req_headers (sent_request example_params) !! "X-WTI-API-KEY" = None) /\
  (req_headers (sent_request example_token_params) !! "X-WTI-API-KEY"
     = Some "randomusertokenfromthewtidevice" /\
   req_headers (sent_request example_token_params) !! "Authorization" = None).
Proof.
  split.
  - destruct (header_auth_mode Json.loads example_server example_params
                "super" eq_refl) as (_ & _ & Hbasic & _).
    apply Hbasic. discriminate.
  - destruct (header_auth_mode Json.loads example_server example_token_params
                "" eq_refl) as (_ & _ & _ & Htoken).
    apply Htoken. reflexivity.
Defined.

Lemma fullurl_path_mode_witness :
  req_url (sent_request example_params) =
    "https://nonexist.wti.com/api/v2/config/serialportsaction?ports=2" /\
  req_url (sent_request example_token_params) =
    "https://nonexist.wti.com/api/v2/token/config/serialportsaction?ports=2".
Proof.
  split.
  - destruct (fullurl_path_mode example_params "super" eq_refl)
      as (Hcred & _ & _).
    apply Hcred. discriminate.
  - destruct (fullurl_path_mode example_token_params "" eq_refl)
      as (_ & Htoken & _).
    apply Htoken. reflexivity.
Defined.

Lemma ports_joined_witness :
  split ","
    (ports (mk_params "nonexist.wti.com" (Some "super") "super"
              (PortList ["4"; "2"; "4"]) true false false))
  = ["4"; "2"; "4"].
Proof.
  destruct (ports_joined "nonexist.wti.com" (Some "super") "super"
              true false false) as (Hall & _).
  destruct (Hall ["4"; "2"; "4"]) as (_ & _ & Hsplit).
  apply Hsplit; [discriminate | reflexivity].
Defined.

Lemma fullurl_composition_witness :
  ports example_params = Spec.joined_ports ["2"].
Proof.
  destruct (fullurl_composition example_params) as (_ & _ & _ & Hports).
  apply Hports. reflexivity.
Defined.

Lemma success_returns_decoded_witness :
  run_outcome Json.loads example_server example_params
  = ExitJson
      {[ "changed" := VBool false;
         "data" := VJson example_data ]}.
Proof.
  apply (success_returns_decoded Json.loads example_server example_params
           example_body); [reflexivity | vm_compute; reflexivity].
Defined.

Lemma recognized_failure_fails_witness :
  exists msg : string,
    run_outcome Json.loads (failing_server http_500) example_params
      = FailJson {[ "msg" := VStr msg; "changed" := VBool false ]} /\
    str_contains (req_url (sent_request example_params)) msg = true /\
    str_contains (exc_str http_500) msg = true /\
    changed_of (run_outcome Json.loads (failing_server http_500)
                  example_params) = Some (VBool false) /\
    data_of (run_outcome Json.loads (failing_server http_500)
               example_params) = None /\
    run_requests Json.loads (failing_server http_500) example_params
      = [sent_request example_params].
Proof.
  apply (recognized_failure_fails Json.loads (failing_server http_500)
           example_params http_500); [reflexivity | repeat constructor].
Defined.

Lemma tls_and_connection_messages_differ_witness :
  exists m_tls m_conn : string,
    run_outcome Json.loads (failing_server bad_certificate) example_params
      = FailJson {[ "msg" := VStr m_tls; "changed" := VBool false ]} /\
    run_outcome Json.loads (failing_server refused) example_params
      = FailJson {[ "msg" := VStr m_conn; "changed" := VBool false ]} /\
    m_tls = "GET: Error validating the servers certificate for " +:+
            req_url (sent_request example_params) +:+ " : " +:+
            exc_str bad_certificate /\
    m_conn = "GET: Error connecting to " +:+
             req_url (sent_request example_params) +:+ " : " +:+
             exc_str refused /\
    m_tls <> m_conn /\
    changed_of (run_outcome Json.loads (failing_server bad_certificate)
                  example_params) = Some (VBool false) /\
    changed_of (run_outcome Json.loads (failing_server refused)
                  example_params) = Some (VBool false).
Proof.
  apply (tls_and_connection_messages_differ Json.loads
           (failing_server bad_certificate) (failing_server refused)
           example_params bad_certificate refused); reflexivity.
Defined.

Lemma changed_always_false_witness :
  changed_of (run_outcome Json.loads example_server example_params)
    = Some (VBool false) /\
  changed_of (run_outcome Json.loads (failing_server refused) example_params)
    = Some (VBool false).
Proof.
  split.
  - destruct (changed_always_false Json.loads example_server example_params)
      as (_ & Hok & _).
    apply (Hok example_body example_data);
      [reflexivity | vm_compute; reflexivity].
  - destruct (changed_always_false Json.loads (failing_server refused)
                example_params) as (_ & _ & Hfail & _).
    apply (Hfail refused); [reflexivity | repeat constructor].
Defined.

Lemma undecodable_body_raises_witness :
  run_outcome Json.loads html_server example_params
    = Uncaught Json.JSONDecodeError /\
  (forall kwargs : gmap string value,
     run_outcome Json.loads html_server example_params <> ExitJson kwargs) /\
  data_of (run_outcome Json.loads html_server example_params) = None.
Proof.
  apply (undecodable_body_raises Json.loads html_server example_params
           "<html>login</html>"); [reflexivity | vm_compute; reflexivity].
Defined.

Lemma absent_username_is_credentialed_witness :
  req_headers (sent_request example_absent_params) =
    {[ "Content-Type" := "application/json";
       "Authorization" := "Basic Tm9uZTpzdXBlcg==" ]} /\
  req_url (sent_request example_absent_params) =
    "http://nonexist.wti.com/api/v2/config/serialportsaction?ports=*".
Proof.
  destruct (absent_username_is_credentialed example_absent_params)
    as (_ & Habsent).
  destruct (Habsent eq_refl) as (_ & _ & Hheader & Hurl).
  split; [exact Hheader | exact Hurl].
Defined.

(** * Further properties of the module *)

(** ** The [except] clauses *)

Section Clauses.

Context {json : Type}.
Variable json_loads : string -> raises json.

Lemma try_except_unrecognized (params : Params) (e : exception) :
  exc_type e ∉ recognized ->
  try_except (A := outcome (json := json)) (except_clauses params) e = None.
Proof.
  unfold recognized. rewrite !not_elem_of_cons. intros (H1 & H2 & H3 & H4 & _).
  cbn [try_except except_clauses].
  by destruct (exc_type e).
Qed.


Lemma recognized_dec (c : exc_class) : c ∈ recognized \/ c ∉ recognized.
Proof. destruct (decide (c ∈ recognized)); auto. Qed.


End Clauses.

(** ** One request, three ways to end *)

Section Outcomes.

Context {json : Type}.
Variable json_loads : string -> raises json.
Variable server : request -> raises string.




(** X3. A result the module exits with has the keys [changed] and [data] and
    no other; the keyword arguments it fails with have [msg] and [changed]
    and no other: a failure never carries [data], a success never [msg]. *)
Theorem outcome_keys (params : Params) (kwargs : gmap string value) :
  (run_outcome json_loads server params = ExitJson kwargs ->
   dom kwargs = ({[ "changed"; "data" ]} : gset string)) /\
  (run_outcome json_loads server params = FailJson kwargs ->
   dom kwargs = ({[ "msg"; "changed" ]} : gset string)).
Proof.
  destruct (server (sent_request params)) as [body|e] eqn:Hs.
  - rewrite (run_outcome_return json_loads server params body Hs).
    destruct (json_loads body) as [decoded|e]; [|by split].
    split; [|done]. intros [= <-]. rewrite result_with_data.
    rewrite dom_insert_L, dom_singleton_L. reflexivity.
  - rewrite (run_outcome_raise json_loads server params e Hs).
    destruct (recognized_dec (exc_type e)) as [Hrec|Hrec].
    + destruct (try_except_recognized (json := json) params e Hrec)
        as (text & -> & _).
      split; [done|]. intros [= <-]. unfold fail_kwargs.
      rewrite dom_insert_L, dom_singleton_L. reflexivity.
    + rewrite (try_except_unrecognized params e Hrec). by split.
Qed.

End Outcomes.

(** ** Two runs compared *)

Section Two_runs.

Context {json : Type}.
Variable json_loads : string -> raises json.
Variables server1 server2 : request -> raises string.


(** X5. The password reaches the outcome only through the appliance: two
    runs whose parameters differ at most in [cpm_password] request the same
    URL, and when the appliance answers both in the same way they end in the
    same outcome, message included. *)
Theorem outcome_independent_of_password (url : string)
    (user : option string) (pw1 pw2 : string) (port : port_value)
    (https validate proxy : bool) :
  let p1 := mk_params url user pw1 port https validate proxy in
  let p2 := mk_params url user pw2 port https validate proxy in
  req_url (sent_request p1) = req_url (sent_request p2) /\
  (server1 (sent_request p1) = server2 (sent_request p2) ->
   run_outcome json_loads server1 p1 = run_outcome json_loads server2 p2).
Proof.
  intros p1 p2. split; [reflexivity|]. intros Hsame.
  destruct (server2 (sent_request p2)) as [body|e] eqn:Hs2.
  - rewrite (run_outcome_return json_loads server1 p1 body Hsame).
    by rewrite (run_outcome_return json_loads server2 p2 body Hs2).
  - rewrite (run_outcome_raise json_loads server1 p1 e Hsame).
    by rewrite (run_outcome_raise json_loads server2 p2 e Hs2).
Qed.

End Two_runs.

(** ** The request, further *)

Section Request.

(** X6. The two tests of the username, the one that builds the headers and
    the one that builds the URL, always agree: either the request carries an
    [Authorization] header, no [X-WTI-API-KEY], and the credentialed path, or
    it carries [X-WTI-API-KEY] set to [cpm_password], no [Authorization],
    and the path with [/token].  No input mixes the two. *)
Theorem auth_mode_of_header_and_path_agree (params : Params) :
  (is_Some (req_headers (sent_request params) !! "Authorization") /\
   req_headers (sent_request params) !! "X-WTI-API-KEY" = None /\
   req_url (sent_request params) =
     protocol params +:+ cpm_url params +:+
     "/api/v2/config/serialportsaction" +:+ "?ports=" +:+ ports params) \/
  (req_headers (sent_request params) !! "X-WTI-API-KEY"
     = Some (cpm_password params) /\
   req_headers (sent_request params) !! "Authorization" = None /\
   req_url (sent_request params) =
     protocol params +:+ cpm_url params +:+
     "/api/v2/token/config/serialportsaction" +:+ "?ports=" +:+ ports params).
Proof.
  cbn [sent_request req_headers req_url].
  destruct (decide (to_native (cpm_username params) = "")) as [He|Hne].
  - right. rewrite header_token, fullurl_token by done. done.
  - left. rewrite header_basic, fullurl_credentialed by done.
    split; [by eexists | done].
Qed.

(** X7. The URL begins with [https://] exactly when [use_https] is true, and
    with [http://] exactly when it is not, whatever [cpm_url] is. *)
Theorem fullurl_scheme_prefix (params : Params) :
  String.prefix "https://" (req_url (sent_request params))
    = use_https params /\
  String.prefix "http://" (req_url (sent_request params))
    = negb (use_https params).
Proof.
  cbn [sent_request req_url]. unfold fullurl, protocol.
  destruct (use_https params); split;
    rewrite ?prefix_app; rewrite ?append_cons; reflexivity.
Qed.

End Request.

(** ** The port list, further *)

Lemma join_cons (sep x : string) (rest : list string) :
  rest <> [] -> join sep (x :: rest) = x +:+ sep +:+ join sep rest.
Proof. by destruct rest. Qed.

Lemma join_split_element (sep x y : string) (before after : list string) :
  join sep (before ++ (x +:+ sep +:+ y) :: after)
  = join sep (before ++ x :: y :: after).
Proof.
  induction before as [|b before IH].
  - cbn [app]. destruct after as [|z after].
    + reflexivity.
    + rewrite (join_cons sep (x +:+ sep +:+ y)) by done.
      rewrite (join_cons sep x), (join_cons sep y) by done.
      by rewrite !append_assoc.
  - cbn [app]. rewrite !(join_cons sep b) by (by destruct before).
    by rewrite IH.
Qed.

Lemma append_eq_nil (a b : string) : a +:+ b = "" -> a = "" /\ b = "".
Proof. by destruct a. Qed.

Lemma map_to_native_id (items : list string) : map to_native items = items.
Proof.
  induction items as [|x items IH]; [reflexivity|]. cbn [map]. by rewrite IH.
Qed.

Section Ports.

Variables (url : string) (user : option string) (pw : string)
  (https validate proxy : bool).

Let params (port : port_value) : Params :=
  mk_params url user pw port https validate proxy.

(** X8. A port element that holds a comma is sent as it is, so it reads as
    two ports: a list with the element [x,y] and the list with the two
    elements [x] and [y] in its place give the same query value and the same
    URL. *)
Theorem port_with_comma_reads_as_two (x y : string)
    (before after : list string) :
  ports (params (PortList (before ++ (x +:+ "," +:+ y) :: after)))
    = ports (params (PortList (before ++ x :: y :: after))) /\
  req_url (sent_request (params (PortList (before ++ (x +:+ "," +:+ y) :: after))))
    = req_url (sent_request (params (PortList (before ++ x :: y :: after)))).
Proof.
  assert (H : ports (params (PortList (before ++ (x +:+ "," +:+ y) :: after)))
              = ports (params (PortList (before ++ x :: y :: after)))).
  { unfold ports. cbn [params port]. rewrite !map_to_native_id.
    apply join_split_element. }
  split; [exact H|]. cbn [sent_request req_url]. unfold fullurl.
  by rewrite H.
Qed.

(** X9. The module sends whatever the list joins to, an empty value
    included: the [ports] value is empty exactly when the list is empty or
    is the single empty string, and the URL then ends with [?ports=]. *)
Theorem ports_empty_iff (items : list string) :
  (ports (params (PortList items)) = "" <-> items = [] \/ items = [""]) /\
  (ports (params (PortList items)) = "" ->
   req_url (sent_request (params (PortList items))) =
     protocol (params (PortList items)) +:+ url +:+
     (if decide (to_native user = "")
      then "/api/v2/token/config/serialportsaction"
      else "/api/v2/config/serialportsaction") +:+ "?ports=").
Proof.
  split.
  - unfold ports. cbn [params port]. rewrite map_to_native_id. split.
    + destruct items as [|a [|b rest]]; [by left | |].
      * cbn [join]. intros ->. by right.
      * rewrite join_cons by done. intros [_ H]%append_eq_nil.
        by apply append_eq_nil in H as [[=] _].
    + by intros [->| ->].
  - intros He. cbn [sent_request req_url].
    destruct (decide (to_native user = "")) as [Hu|Hu].
    + rewrite fullurl_token by exact Hu. by rewrite He.
    + rewrite fullurl_credentialed by exact Hu. by rewrite He.
Qed.

End Ports.

(** ** The Basic authorization, further *)

(** Induction on a string three characters at a time, as [b64encode]
    recurses. *)
Lemma string_ind3 (P : string -> Prop) :
  P "" ->
  (forall a, P (String a "")) ->
  (forall a b, P (String a (String b ""))) ->
  (forall a b c s, P s -> P (String a (String b (String c s)))) ->
  forall s, P s.
Proof.
  intros H0 H1 H2 H3 s.
  enough (H : P s /\ (forall a, P (String a s)) /\
              (forall a b, P (String a (String b s)))) by apply H.
  induction s as [|c s (IH0 & IH1 & IH2)]; [by repeat split|].
  split; [apply IH1|]. split; [intros a; apply IH2|].
  intros a b. by apply H3.
Qed.

Section Base64_more.

Import Base64.

Lemma b64encode_length (s : string) :
  String.length (b64encode s) = (4 * ((String.length s + 2) / 3))%nat.
Proof.
  induction s as [|a|a b|a b c s IH] using string_ind3; try reflexivity.
  cbn [b64encode String.length]. rewrite IH.
  replace (S (S (S (String.length s))) + 2)%nat
    with (String.length s + 2 + 1 * 3)%nat by lia.
  rewrite Nat.div_add by lia. lia.
Qed.

Lemma enc_char_is_b64 (i : N) : i < 64 -> is_b64_char (enc_char i) = true.
Proof.
  intros Hi. unfold is_b64_char. rewrite dec_enc_char by exact Hi.
  apply orb_true_r.
Qed.

Lemma b64encode_chars (s : string) :
  string_forall is_b64_char (b64encode s) = true.
Proof.
  induction s as [|a|a b|a b c s IH] using string_ind3;
    cbn [b64encode string_forall];
    rewrite ?enc_char_is_b64 by apply sextet_bound; try reflexivity.
  exact IH.
Qed.


End Base64_more.


Lemma header_authorization (params : Params) :
  to_native (cpm_username params) <> "" ->
  header params !! "Authorization" =
  Some ("Basic " +:+
        Base64.b64encode (to_native (cpm_username params) +:+ ":" +:+
                          cpm_password params)).
Proof. intros Hne. by rewrite header_basic. Qed.

Section Basic.

(** X10. In credentialed mode the value of [Authorization] is [Basic ] and
    a text of four characters for every three bytes of
    [cpm_username:cpm_password], rounded up, each of them a character of the
    base64 alphabet or the padding: whatever the username and the password
    hold, the value holds no other character. *)
Theorem authorization_value_shape (params : Params) :
  to_native (cpm_username params) <> "" ->
  exists auth : string,
    req_headers (sent_request params) !! "Authorization"
      = Some ("Basic " +:+ auth) /\
    String.length auth =
      (4 * ((String.length (to_native (cpm_username params)) + 1 +
             String.length (cpm_password params) + 2) / 3))%nat /\
    string_forall is_b64_char auth = true.
Proof.
  intros Hne. eexists. split; [by apply header_authorization|].
  split; [|apply b64encode_chars].
  rewrite b64encode_length. do 2 f_equal.
  generalize (to_native (cpm_username params)) as u.
  intros u. clear. induction u as [|a u IH]; [reflexivity|].
  rewrite append_cons. cbn [String.length]. lia.
Qed.

(** X11. In credentialed mode the value of [Authorization] decodes to
    [cpm_username], a colon and [cpm_password]: the appliance reads back
    the bytes the module was given. *)
Theorem authorization_decodes (params : Params) :
  to_native (cpm_username params) <> "" ->
  exists auth : string,
    req_headers (sent_request params) !! "Authorization"
      = Some ("Basic " +:+ auth) /\
    Base64.b64decode auth
      = Some (to_native (cpm_username params) +:+ ":" +:+
              cpm_password params).
Proof.
  intros Hne. eexists. split; [by apply header_authorization|].
  apply b64decode_b64encode.
Qed.


(** X13. The module does not refuse a colon in the username, and the colon
    moves the boundary: the username [u:p] with the password [q] and the
    username [u] with the password [p:q] send the same headers. *)
Theorem colon_in_username_is_ambiguous (url : string) (u p q : string)
    (port : port_value) (https validate proxy : bool) :
  u <> "" ->
  req_headers (sent_request
    (mk_params url (Some (u +:+ ":" +:+ p)) q port https validate proxy))
  = req_headers (sent_request
      (mk_params url (Some u) (p +:+ ":" +:+ q) port https validate proxy)).
Proof.
  intros Hu. cbn [sent_request req_headers].
  rewrite !header_basic.
  - cbn [cpm_username cpm_password]. unfold to_native, to_native_optional.
    by rewrite !append_assoc.
  - exact Hu.
  - cbn [cpm_username]. unfold to_native, to_native_optional.
    by destruct u.
Qed.

End Basic.

(** ** The further properties, run *)


Lemma outcome_keys_witness :
  dom ({[ "changed" := VBool false; "data" := VJson example_data ]}
         : gmap string value)
  = ({[ "changed"; "data" ]} : gset string).
Proof.
  apply (outcome_keys Json.loads example_server example_params).
  apply (run_outcome_decoded Json.loads example_server example_params
           example_body); [reflexivity | vm_compute; reflexivity].
Defined.


Lemma outcome_independent_of_password_witness :
  run_outcome Json.loads (failing_server http_500)
    (mk_params "nonexist.wti.com" (Some "super") "super" (PortList ["2"])
       true false false)
  = run_outcome Json.loads (failing_server http_500)
      (mk_params "nonexist.wti.com" (Some "super") "another" (PortList ["2"])
         true false false).
Proof.
  apply (outcome_independent_of_password Json.loads
           (failing_server http_500) (failing_server http_500)
           "nonexist.wti.com" (Some "super") "super" "another"
           (PortList ["2"]) true false false).
  reflexivity.
Defined.

Lemma ports_empty_iff_witness :
  req_url (sent_request
    (mk_params "nonexist.wti.com" (Some "super") "super" (PortList [""])
       true false false))
  = "https://nonexist.wti.com/api/v2/config/serialportsaction?ports=".
Proof.
  apply (ports_empty_iff "nonexist.wti.com" (Some "super") "super"
           true false false [""]).
  reflexivity.
Defined.

Lemma authorization_value_shape_witness :
  exists auth : string,
    req_headers (sent_request example_params) !! "Authorization"
      = Some ("Basic " +:+ auth) /\
    String.length auth = 16%nat /\
    string_forall is_b64_char auth = true.
Proof.
  apply (authorization_value_shape example_params). discriminate.
Defined.

Lemma authorization_decodes_witness :
  exists auth : string,
    req_headers (sent_request example_params) !! "Authorization"
      = Some ("Basic " +:+ auth) /\
    Base64.b64decode auth = Some "super:super".
Proof.
  apply (authorization_decodes example_params). discriminate.
Defined.


Lemma colon_in_username_is_ambiguous_witness :
  req_headers (sent_request
    (mk_params "nonexist.wti.com" (Some "ops:team") "secret" port_default
       true false false))
  = req_headers (sent_request
      (mk_params "nonexist.wti.com" (Some "ops") "team:secret" port_default
         true false false)).
Proof.
  apply (colon_in_username_is_ambiguous "nonexist.wti.com" "ops" "team"
           "secret" port_default true false false).
  discriminate.
Defined.
